(** * pyblish_integration.lib: host-side bootstrap of the Pyblish QML worker

    A shallow embedding of [pyblish_integration/lib.py].  The module keeps
    three globals ([self.proxy], [self.port], [self.executable]), reads and
    writes [os.environ], talks to the QML worker through an XML-RPC proxy,
    spawns the worker with [subprocess.Popen] and starts two daemon threads.

    Python statements are embedded in a state-and-exception monad: effects on
    the globals and on the environment persist when an exception is raised,
    exactly as in Python.  Everything the module does to the outside world is
    appended to a trace of events; what the outside world answers is read
    from a [World], indexed by how many calls of that kind came before. *)

From Stdlib Require Import ZArith List String Bool Lia.
From stdpp Require Import base option list strings gmap pretty.

Local Open Scope Z_scope.
Local Open Scope string_scope.

(** ** Python exceptions and results *)

Module Py.

(** The exception classes that the control flow of the module tells apart.
    [socket_error] and [socket_timeout] are the two classes named in the
    [except (socket.error, socket.timeout)] clauses. *)
Inductive exn : Type :=
| socket_error
| socket_timeout
| AssertionError
| TypeError (msg : string)
| OtherError (name : string).

(** [except (socket.error, socket.timeout)] *)
Definition is_connectivity (e : exn) : bool :=
  match e with
  | socket_error | socket_timeout => true
  | _ => false
  end.

(** a bare [except:] *)
Definition any_exn (_ : exn) : bool := true.

Inductive Res (A : Type) : Type :=
| Ok (a : A)
| Raise (e : exn).
Arguments Ok {A} a.
Arguments Raise {A} e.

Definition raised {A} (r : Res A) : bool :=
  match r with Ok _ => false | Raise _ => true end.

Definition delivered {A} (r : Res A) : bool := negb (raised r).

(** Truth value of [None], of the empty string and of other strings. *)
Definition truthy (v : option string) : bool :=
  match v with
  | None => false
  | Some s => negb (String.eqb s "")
  end.

(** [a or b] on an optional string and a string. *)
Definition py_or (a : option string) (b : string) : string :=
  match a with
  | Some s => if String.eqb s "" then b else s
  | None => b
  end.

(** [str(v)] for [v] an integer or [None]. *)
Definition str (v : option Z) : string :=
  match v with
  | Some n => pretty n
  | None => "None"
  end.

Definition exn_name (e : exn) : string :=
  match e with
  | socket_error => "error"
  | socket_timeout => "timeout"
  | AssertionError => "AssertionError"
  | TypeError _ => "TypeError"
  | OtherError n => n
  end.

Definition exn_msg (e : exn) : string :=
  match e with
  | TypeError m => m
  | _ => ""
  end.

(** The last line of [traceback.format_exception]; the stack frames that
    precede it are left out. *)
Definition format_exception (e : exn) : string :=
  "Traceback (most recent call last): " ++ exn_name e ++ ": " ++ exn_msg e.

End Py.
Export Py.

(** ** Module constants *)

Definition CREATE_NO_WINDOW : Z := 0x08000000.
Definition PYBLISH_QML_CONSOLE : string := "PYBLISH_QML_CONSOLE".
Definition PYBLISH_CLIENT_PORT : string := "PYBLISH_CLIENT_PORT".

(** ** Observable events *)

(** An RPC event records the call and whether the worker answered it. *)
Inductive Event : Type :=
| ProxyCreated
| RpcFindAvailablePort (answered : bool)
| RpcShow (port : option Z) (answered : bool)
| RpcHeartbeat (port : option Z) (answered : bool)
| Popen (args : list string) (creationflags : Z) (spawned : bool)
| Poll
| ThreadStart (name : string) (started : bool)
| Sleep (seconds : Z)
| LogDebug (msg : string).

Definition is_find (e : Event) : bool :=
  match e with RpcFindAvailablePort _ => true | _ => false end.
Definition is_show (e : Event) : bool :=
  match e with RpcShow _ _ => true | _ => false end.
Definition is_heartbeat (e : Event) : bool :=
  match e with RpcHeartbeat _ _ => true | _ => false end.
Definition is_popen (e : Event) : bool :=
  match e with Popen _ _ _ => true | _ => false end.
Definition is_thread_start (e : Event) : bool :=
  match e with ThreadStart _ _ => true | _ => false end.
Definition is_proxy_created (e : Event) : bool :=
  match e with ProxyCreated => true | _ => false end.
Definition is_log (e : Event) : bool :=
  match e with LogDebug _ => true | _ => false end.
Definition is_rpc (e : Event) : bool :=
  is_find e || is_show e || is_heartbeat e.
Definition is_answered_show (e : Event) : bool :=
  match e with RpcShow _ true => true | _ => false end.

Definition count (p : Event -> bool) (tr : list Event) : nat :=
  length (List.filter p tr).

(** ** The outside world *)

(** The handle [subprocess.Popen] returns; [poll_result] is what the one
    [poll()] made on it answers: [None] while the process runs, its exit
    code once it has exited. *)
Record Process : Type := mkProcess { poll_result : option Z }.

(** [first_port] is [pyblish_qml.server.first_port] and [os_name] is
    [os.name], both defined outside this module.  The replies are indexed by
    the number of earlier calls of the same kind. *)
Record World : Type := mkWorld {
  first_port : Z;
  os_name : string;
  find_available_port_reply : nat -> Res Z;
  show_reply : nat -> Res unit;
  heartbeat_reply : nat -> Res unit;
  popen_reply : nat -> Res Process;
  thread_start_reply : nat -> Res unit
}.

(** ** Module state *)

Record State : Type := mkState {
  proxy : option nat;
  port : option Z;
  executable : option string;
  environ : gmap string string;
  trace : list Event
}.

Definition set_proxy (v : option nat) (s : State) : State :=
  mkState v (port s) (executable s) (environ s) (trace s).
Definition set_port (v : option Z) (s : State) : State :=
  mkState (proxy s) v (executable s) (environ s) (trace s).
Definition set_executable (v : option string) (s : State) : State :=
  mkState (proxy s) (port s) v (environ s) (trace s).
Definition set_environ (k v : string) (s : State) : State :=
  mkState (proxy s) (port s) (executable s) (<[k := v]> (environ s)) (trace s).
Definition log_event (e : Event) (s : State) : State :=
  mkState (proxy s) (port s) (executable s) (environ s) (trace s ++ [e]).

(** The state right after import: [self.proxy = self.port = self.executable
    = None], under a given process environment. *)
Definition initial (env : gmap string string) : State :=
  mkState None None None env [].

(** ** The monad of Python statements *)

Definition M (A : Type) : Type := State -> Res A * State.

Definition ret {A} (a : A) : M A := fun s => (Ok a, s).
Definition raise {A} (e : exn) : M A := fun s => (Raise e, s).
Definition bind {A B} (m : M A) (k : A -> M B) : M B :=
  fun s =>
    match m s with
    | (Ok a, s') => k a s'
    | (Raise e, s') => (Raise e, s')
    end.

Declare Scope py_scope.
Delimit Scope py_scope with py.
Notation "x <- m ;; k" := (bind m (fun x => k))
  (at level 100, m at next level, k at level 200, right associativity)
  : py_scope.
Notation "m ;; k" := (bind m (fun _ => k))
  (at level 100, k at level 200, right associativity) : py_scope.
Local Open Scope py_scope.

Definition gets {A} (f : State -> A) : M A := fun s => (Ok (f s), s).
Definition modify (f : State -> State) : M unit := fun s => (Ok tt, f s).
Definition emit (e : Event) : M unit := modify (log_event e).

(** [try: body / except <classes>: handler]: an exception of [body] that
    [catches] accepts runs the handler; any other one goes on. *)
Definition try_except {A} (body : M A) (catches : exn -> bool)
    (handler : exn -> M A) : M A :=
  fun s =>
    match body s with
    | (Ok a, s') => (Ok a, s')
    | (Raise e, s') => if catches e then handler e s' else (Raise e, s')
    end.

(** [try: body / finally: final]: [final] runs whatever [body] did; when
    [final] raises, its exception replaces the outcome of [body], otherwise
    the outcome of [body] stands. *)
Definition try_finally {A} (body : M A) (final : M unit) : M A :=
  fun s =>
    match body s with
    | (r, s') =>
        match final s' with
        | (Ok _, s'') => (r, s'')
        | (Raise e, s'') => (Raise e, s'')
        end
    end.

(** [assert b], for an interpreter that runs with assertions enabled. *)
Definition assert (b : bool) : M unit :=
  if b then ret tt else raise AssertionError.

Definition log_debug (msg : string) : M unit := emit (LogDebug msg).

(** [os.environ[k] = v] *)
Definition setenv (k v : string) : M unit := modify (set_environ k v).

(** ** The module's functions *)

Section Lib.

Variable w : World.

(** *** Calls into the outside world *)

(** [pyblish_qml.client.proxy()]: builds a client handle; nothing is sent
    until a method is called on it.  Handles are numbered in creation
    order. *)
Definition client_proxy : M nat :=
  n <- gets (fun s => count is_proxy_created (trace s)) ;;
  emit ProxyCreated ;;
  ret n.

(** Replays the world's reply [r] as the outcome of a statement. *)
Definition reply {A} (r : Res A) : M A := fun s => (r, s).

(** [proxy.find_available_port()] *)
Definition proxy_find_available_port : M Z :=
  k <- gets (fun s => count is_find (trace s)) ;;
  let r := find_available_port_reply w k in
  emit (RpcFindAvailablePort (delivered r)) ;;
  reply r.

(** [proxy.show(port)] *)
Definition proxy_show (p : option Z) : M unit :=
  k <- gets (fun s => count is_show (trace s)) ;;
  let r := show_reply w k in
  emit (RpcShow p (delivered r)) ;;
  reply r.

(** [proxy.heartbeat(port)] *)
Definition proxy_heartbeat (p : option Z) : M unit :=
  k <- gets (fun s => count is_heartbeat (trace s)) ;;
  let r := heartbeat_reply w k in
  emit (RpcHeartbeat p (delivered r)) ;;
  reply r.

(** [subprocess.Popen(args=..., creationflags=...)] *)
Definition subprocess_Popen (args : list string) (creationflags : Z)
  : M Process :=
  k <- gets (fun s => count is_popen (trace s)) ;;
  let r := popen_reply w k in
  emit (Popen args creationflags (delivered r)) ;;
  reply r.

(** [proc.poll()] *)
Definition poll (proc : Process) : M (option Z) :=
  emit Poll ;;
  ret (poll_result proc).

(** [t = threading.Thread(target=worker, name=...); t.daemon = True;
    t.start()] *)
Definition thread_start (name : string) : M unit :=
  k <- gets (fun s => count is_thread_start (trace s)) ;;
  let r := thread_start_reply w k in
  emit (ThreadStart name (delivered r)) ;;
  reply r.

(** [time.sleep(seconds)] *)
Definition time_sleep (seconds : Z) : M unit := emit (Sleep seconds).

(** *** Registration of the worker's interpreter *)

Definition register_python_executable (e : option string) : M unit :=
  modify (set_executable e).

Definition registered_python_executable : M (option string) :=
  gets executable.

(** *** preload *)

(** The local [console] of [preload]: the truth value of
    [os.environ.get(PYBLISH_QML_CONSOLE)]. *)
Definition console_flag (s : State) : bool :=
  truthy (environ s !! PYBLISH_QML_CONSOLE).

Definition creationflags_for (console : bool) : Z :=
  if String.eqb (os_name w) "nt" && negb console
  then CREATE_NO_WINDOW
  else 0.

Definition preload : M Process :=
  console <- gets console_flag ;;
  registered <- registered_python_executable ;;
  let executable := py_or registered "python" in
  subprocess_Popen [executable; "-m"; "pyblish_qml"]
                   (creationflags_for console).

(** *** _serve *)

(** ["Server running @ %i" % port]: [%i] wants a number. *)
Definition server_running_message (p : option Z) : M string :=
  match p with
  | Some n => ret ("Server running @ " ++ pretty n)
  | None => raise (TypeError "%i format: a number is required, not NoneType")
  end.

(** The two workers are started in the order of the tuple
    [(server, heartbeat_emitter)]; their bodies run on their own threads
    (see [heartbeat_emitter] below). *)
Definition _serve (p : option Z) : M (option Z) :=
  thread_start "server" ;;
  thread_start "heartbeat_emitter" ;;
  msg <- server_running_message p ;;
  log_debug msg ;;
  ret p.

(** *** setup *)

(** The body of the [try] clause of [setup]. *)
Definition setup_try : M unit :=
  h <- client_proxy ;;
  modify (set_proxy (Some h)) ;;
  n <- proxy_find_available_port ;;
  modify (set_port (Some n)).

(** The body of its [except (socket.timeout, socket.error)] clause. *)
Definition setup_except : M unit :=
  modify (set_port (Some (first_port w))) ;;
  proc <- preload ;;
  status <- poll proc ;;
  assert (bool_decide (status = None)).

(** The body of its [finally] clause. *)
Definition setup_finally : M unit :=
  p <- gets port ;;
  setenv PYBLISH_CLIENT_PORT (str p) ;;
  try_except
    (_serve p ;;
     log_debug "Integration successful!")
    any_exn
    (fun e =>
       log_debug (format_exception e) ;;
       log_debug "Integration failed..").

Definition setup (console : bool) : M unit :=
  (if console then setenv PYBLISH_QML_CONSOLE "1" else ret tt) ;;
  try_finally
    (try_except setup_try is_connectivity (fun _ => setup_except))
    setup_finally.

(** *** show *)

Definition show : M unit :=
  p <- gets port ;;
  match p with
  | None => raise (TypeError "Integration not initialised correctly")
  | Some _ =>
      h <- gets proxy ;;
      match h with
      | None => h' <- client_proxy ;; modify (set_proxy (Some h'))
      | Some _ => ret tt
      end ;;
      try_finally
        (try_except
           (p1 <- gets port ;; proxy_show p1)
           is_connectivity
           (fun _ => preload ;; ret tt))
        (p2 <- gets port ;; proxy_show p2)
  end.

(** *** heartbeat_emitter *)

(** One turn of the [while True] loop of [heartbeat_emitter]. *)
Definition heartbeat_turn (p : option Z) : M unit :=
  try_except
    (proxy_heartbeat p ;;
     time_sleep 1)
    is_connectivity
    (fun _ => ret tt).

(** The first [n] turns of the loop.  The loop has no exit of its own:
    [Ok] after [n] turns means it is still running, [Raise] that an
    exception left it. *)
Fixpoint heartbeat_turns (p : option Z) (n : nat) : M unit :=
  match n with
  | O => ret tt
  | S n' => heartbeat_turn p ;; heartbeat_turns p n'
  end.

(** The thread body: [proxy = pyblish_qml.client.proxy()], then the loop,
    observed for [n] turns. *)
Definition heartbeat_emitter (p : option Z) (n : nat) : M unit :=
  client_proxy ;;
  heartbeat_turns p n.

End Lib.

(** ** Reading a run *)

Local Open Scope list_scope.

(** The events a run from [s] to [s'] appended to the trace. *)
Definition new_events (s s' : State) : list Event :=
  drop (length (trace s)) (trace s').

(** The state in which the [try] statement of [setup] starts. *)
Definition console_set (console : bool) (s : State) : State :=
  if console then set_environ PYBLISH_QML_CONSOLE "1" s else s.

(** What the [except] clause of [setup] hands on, given what [Popen]
    answered: the exception of a failed spawn, or the verdict of the
    liveness assertion on the process. *)
Definition fallback_result (r : Res Process) : Res unit :=
  match r with
  | Ok proc => if bool_decide (poll_result proc = None)
               then Ok tt else Raise AssertionError
  | Raise e => Raise e
  end.

(** A trace is paced when every heartbeat that another one follows is
    separated from it by a [Sleep 1]. *)
Fixpoint paced (tr : list Event) : bool :=
  match tr with
  | [] => true
  | RpcHeartbeat _ _ :: rest =>
      match rest with
      | [] => true
      | Sleep d :: _ => Z.eqb d 1 && paced rest
      | _ => false
      end
  | _ :: rest => paced rest
  end.

(** A heartbeat the loop survives: answered, or refused with one of the two
    socket errors. *)
Definition survivable (r : Res unit) : bool :=
  match r with
  | Ok _ => true
  | Raise e => is_connectivity e
  end.

(** Every [Popen] among the events was made with creation flags [flags]. *)
Definition popen_flags_are (flags : Z) (e : Event) : bool :=
  match e with
  | Popen _ f _ => Z.eqb f flags
  | _ => true
  end.

(** A launch shows the console when [CREATE_NO_WINDOW] is not passed. *)
Definition shows_console (e : Event) : bool := popen_flags_are 0 e.

(** The events of creating the cached proxy when there is none. *)
Definition proxy_events (s : State) : list Event :=
  match proxy s with None => [ProxyCreated] | Some _ => [] end.

(** The calls a host makes into the module. *)
Inductive Call : Type :=
| CallSetup (console : bool)
| CallShow
| CallRegister (e : option string).

Section Observations.

Variable w : World.

(** The events of the [except] clause of [setup]: one [Popen], and the
    [poll()] when there is a process to poll. *)
Definition fallback_events (s : State) (r : Res Process) : list Event :=
  Popen [py_or (executable s) "python"; "-m"; "pyblish_qml"]
        (creationflags_for w (console_flag s)) (delivered r)
  :: match r with Ok _ => [Poll] | Raise _ => [] end.

(** Outcome, port and events of the [try]/[except] part of [setup], read
    off the world's replies. *)
Definition negotiation_result (s : State) : Res unit :=
  match find_available_port_reply w (count is_find (trace s)) with
  | Ok _ => Ok tt
  | Raise e =>
      if is_connectivity e
      then fallback_result (popen_reply w (count is_popen (trace s)))
      else Raise e
  end.

Definition negotiated_port (s : State) : option Z :=
  match find_available_port_reply w (count is_find (trace s)) with
  | Ok n => Some n
  | Raise e => if is_connectivity e then Some (first_port w) else port s
  end.

Definition negotiation_events (s : State) : list Event :=
  match find_available_port_reply w (count is_find (trace s)) with
  | Ok n => [ProxyCreated; RpcFindAvailablePort true]
  | Raise e =>
      [ProxyCreated; RpcFindAvailablePort false] ++
      (if is_connectivity e
       then fallback_events s (popen_reply w (count is_popen (trace s)))
       else [])
  end.

(** The events of the turn of the heartbeat loop that makes call number
    [k]: the sleep is in the [try] body, after the call, so a refused call
    skips it. *)
Definition turn_events (p : option Z) (k : nat) : list Event :=
  if delivered (heartbeat_reply w k)
  then [RpcHeartbeat p true; Sleep 1]
  else [RpcHeartbeat p false].

Definition call (c : Call) : M unit :=
  match c with
  | CallSetup console => setup w console
  | CallShow => show w
  | CallRegister e => register_python_executable e
  end.

(** The state after a sequence of calls; an exception ends the call that
    raised it, not the host. *)
Fixpoint run (cs : list Call) (s : State) : State :=
  match cs with
  | [] => s
  | c :: cs' => run cs' (snd (call c s))
  end.

End Observations.

(** ** Example worlds and states *)

(** No worker answers; the process that [Popen] starts has exited with
    status [1] by the time it is polled. *)
Definition w_dead : World :=
  mkWorld 9001 "nt"
          (fun _ => Raise socket_error) (fun _ => Ok tt) (fun _ => Ok tt)
          (fun _ => Ok (mkProcess (Some 1))) (fun _ => Ok tt).

(** No worker answers and the one that is started keeps running. *)
Definition w_fresh : World :=
  mkWorld 9001 "nt"
          (fun _ => Raise socket_timeout) (fun _ => Ok tt) (fun _ => Ok tt)
          (fun _ => Ok (mkProcess None)) (fun _ => Ok tt).

(** A worker is up, hands out port [9002] and answers every call. *)
Definition w_live : World :=
  mkWorld 9001 "nt"
          (fun _ => Ok 9002) (fun _ => Ok tt) (fun _ => Ok tt)
          (fun _ => Ok (mkProcess None)) (fun _ => Ok tt).

(** The worker is down for the first [show] and nothing can be spawned. *)
Definition w_down : World :=
  mkWorld 9001 "posix"
          (fun _ => Ok 9002)
          (fun k => match k with O => Raise socket_error | _ => Ok tt end)
          (fun _ => Ok tt)
          (fun _ => Raise (OtherError "OSError")) (fun _ => Ok tt).

(** The worker answers the heartbeats of even rank and refuses those of odd
    rank. *)
Definition w_alternating : World :=
  mkWorld 9001 "nt"
          (fun _ => Ok 9002) (fun _ => Ok tt)
          (fun k => if Nat.even k then Ok tt else Raise socket_error)
          (fun _ => Ok (mkProcess None)) (fun _ => Ok tt).

(** The state a successful [setup] leaves: against [w_live], and against
    [w_down]. *)
Definition s_live : State := snd (setup w_live false (initial ∅)).
Definition s_ready : State := snd (setup w_down false (initial ∅)).

(** The state after [register_python_executable("mayapy")] and
    [setup(console=True)] against a live worker. *)
Definition s_mayapy : State :=
  snd (setup w_live true
         (snd (register_python_executable (Some "mayapy") (initial ∅)))).

(** The state after [register_python_executable("")]. *)
Definition s_empty : State :=
  snd (register_python_executable (Some "") (initial ∅)).

(** ** Further observations *)

Definition is_sleep (e : Event) : bool :=
  match e with Sleep _ => true | _ => false end.
Definition is_answered_heartbeat (e : Event) : bool :=
  match e with RpcHeartbeat _ true => true | _ => false end.
Definition is_register (c : Call) : bool :=
  match c with CallRegister _ => true | _ => false end.

(** Every [Popen] among the events was made with argument vector [args]. *)
Definition popen_args_are (args : list string) (e : Event) : bool :=
  match e with
  | Popen a _ _ => bool_decide (a = args)
  | _ => true
  end.

(** A reply to [find_available_port] after which [setup] has set
    [self.port]: an answer, or one of the two socket errors. *)
Definition reaches_port (r : Res Z) : bool :=
  match r with
  | Ok _ => true
  | Raise e => is_connectivity e
  end.

Section MoreObservations.

Variable w : World.

(** The events of the [finally] clause of [setup], entered with [k]
    earlier thread starts and [self.port = p]. *)
Definition finally_events (k : nat) (p : option Z) : list Event :=
  match thread_start_reply w k with
  | Raise e1 =>
      [ThreadStart "server" false;
       LogDebug (format_exception e1); LogDebug "Integration failed.."]
  | Ok _ =>
      match thread_start_reply w (S k) with
      | Raise e2 =>
          [ThreadStart "server" true; ThreadStart "heartbeat_emitter" false;
           LogDebug (format_exception e2); LogDebug "Integration failed.."]
      | Ok _ =>
          [ThreadStart "server" true; ThreadStart "heartbeat_emitter" true]
          ++ match p with
             | Some n =>
                 [LogDebug ("Server running @ " +:+ pretty n);
                  LogDebug "Integration successful!"]
             | None =>
                 [LogDebug
                    (format_exception
                       (TypeError
                          "%i format: a number is required, not NoneType"));
                  LogDebug "Integration failed.."]
             end
      end
  end.

(** The exception that starting the server raises inside the [finally]
    clause of [setup], entered with [k] earlier thread starts and
    [self.port = p]: that of the first thread start that fails, or the
    [TypeError] of ["Server running @ %i" % port] when both threads started
    and the port is [None]; [None] when [_serve] returns. *)
Definition startup_error (k : nat) (p : option Z) : option exn :=
  match thread_start_reply w k with
  | Raise e1 => Some e1
  | Ok _ =>
      match thread_start_reply w (S k) with
      | Raise e2 => Some e2
      | Ok _ =>
          match p with
          | Some _ => None
          | None =>
              Some (TypeError "%i format: a number is required, not NoneType")
          end
      end
  end.

(** The calls [show] makes once the proxy is there: the [show(port)] of
    the [try] body, the launch of the [except] clause when that call
    failed with a socket error, and the [show(port)] of the [finally]
    clause. *)
Definition show_events (s : State) : list Event :=
  let r1 := show_reply w (count is_show (trace s)) in
  RpcShow (port s) (delivered r1)
  :: match r1 with
     | Raise e =>
         if is_connectivity e
         then [Popen [py_or (executable s) "python"; "-m"; "pyblish_qml"]
                     (creationflags_for w (console_flag s))
                     (delivered (popen_reply w (count is_popen (trace s))))]
         else []
     | Ok _ => []
     end
  ++ [RpcShow (port s)
              (delivered (show_reply w (S (count is_show (trace s)))))].

(** What the [try]/[except] part of [show] hands to its [finally]
    clause. *)
Definition show_body_result (s : State) : Res unit :=
  match show_reply w (count is_show (trace s)) with
  | Ok _ => Ok tt
  | Raise e =>
      if is_connectivity e
      then match popen_reply w (count is_popen (trace s)) with
           | Ok _ => Ok tt
           | Raise e' => Raise e'
           end
      else Raise e
  end.

End MoreObservations.

(** [find_available_port] fails with an XML-RPC fault, which is not a
    socket error. *)
Definition w_fault : World :=
  mkWorld 9001 "nt"
          (fun _ => Raise (OtherError "Fault")) (fun _ => Ok tt)
          (fun _ => Ok tt)
          (fun _ => Ok (mkProcess None)) (fun _ => Ok tt).

(** The worker answers two heartbeats, refuses the third, and the fourth
    fails with an XML-RPC fault. *)
Definition w_faulty_heartbeat : World :=
  mkWorld 9001 "nt"
          (fun _ => Ok 9002) (fun _ => Ok tt)
          (fun k => match k with
                    | 2%nat => Raise socket_error
                    | 3%nat => Raise (OtherError "Fault")
                    | _ => Ok tt
                    end)
          (fun _ => Ok (mkProcess None)) (fun _ => Ok tt).

(** * Reasoning about runs *)

Lemma count_app p (a b : list Event) :
  count p (a ++ b) = (count p a + count p b)%nat.
Proof. unfold count. by rewrite List.filter_app, length_app. Qed.

Lemma count_nil p : count p [] = 0%nat.
Proof. reflexivity. Qed.

Lemma count_cons p (e : Event) (l : list Event) :
  count p (e :: l) = ((if p e then 1 else 0) + count p l)%nat.
Proof. unfold count. simpl. by destruct (p e). Qed.

Lemma count_none p (l : list Event) :
  Forall (fun e => p e = false) l -> count p l = 0%nat.
Proof.
  unfold count. induction 1 as [|e l He _ IH]; simpl; [done|].
  by rewrite He.
Qed.

Lemma new_events_app s s' l :
  trace s' = trace s ++ l -> new_events s s' = l.
Proof. intros H. unfold new_events. rewrite H. by rewrite drop_app_length. Qed.

Lemma new_events_refl s : new_events s s = [].
Proof. apply new_events_app. by rewrite app_nil_r. Qed.

(** Unfolds the statements of the module down to functions on states. *)
Ltac py_unfold :=
  unfold setup_try, setup_except, setup_finally, preload, _serve,
    heartbeat_turn, client_proxy,
    proxy_find_available_port, proxy_show, proxy_heartbeat,
    subprocess_Popen, poll, thread_start, time_sleep,
    register_python_executable, registered_python_executable,
    server_running_message, log_debug, setenv, assert, emit, reply,
    try_finally, try_except, bind, ret, raise, gets, modify.

(** Normalises the state reached: fields, the trace as one append, and the
    call counts over it. *)
Ltac py_state :=
  unfold log_event, set_proxy, set_port, set_executable, set_environ;
  cbn [fst snd proxy port executable environ trace any_exn];
  rewrite <- ?app_assoc;
  cbn [app];
  rewrite ?count_app, ?count_cons, ?count_nil;
  cbn [is_find is_show is_heartbeat is_popen is_thread_start
       is_proxy_created delivered raised negb Nat.add];
  rewrite ?Nat.add_0_r.

Ltac py_run := py_unfold; py_state.

(** ** The clauses of [setup] *)

Section Clauses.

Variable w : World.

Lemma preload_run s :
  preload w s =
  (popen_reply w (count is_popen (trace s)),
   log_event
     (Popen [py_or (executable s) "python"; "-m"; "pyblish_qml"]
            (creationflags_for w (console_flag s))
            (delivered (popen_reply w (count is_popen (trace s)))))
     s).
Proof. by py_unfold. Qed.

Lemma setup_try_answered s n :
  find_available_port_reply w (count is_find (trace s)) = Ok n ->
  setup_try w s =
  (Ok tt,
   mkState (Some (count is_proxy_created (trace s))) (Some n)
           (executable s) (environ s)
           (trace s ++ [ProxyCreated; RpcFindAvailablePort true])).
Proof. intros H. py_run. rewrite H. by py_state. Qed.

Lemma setup_try_raises s e :
  find_available_port_reply w (count is_find (trace s)) = Raise e ->
  setup_try w s =
  (Raise e,
   mkState (Some (count is_proxy_created (trace s))) (port s)
           (executable s) (environ s)
           (trace s ++ [ProxyCreated; RpcFindAvailablePort false])).
Proof. intros H. py_run. rewrite H. by py_state. Qed.

(** The [except] clause sets the default port, launches once, and checks
    the process when the launch gave one. *)
Lemma setup_except_run s :
  let r := popen_reply w (count is_popen (trace s)) in
  setup_except w s =
  (fallback_result r,
   mkState (proxy s) (Some (first_port w)) (executable s) (environ s)
           (trace s ++ fallback_events w s r)).
Proof.
  py_run. unfold console_flag. py_state.
  destruct (popen_reply w _) as [proc|e]; py_state; [|done].
  unfold fallback_result, fallback_events, console_flag.
  by destruct (bool_decide _).
Qed.

(** The [finally] clause never raises: it only publishes the port, starts
    threads and logs. *)
Lemma setup_finally_run s :
  exists l,
    setup_finally w s =
    (Ok tt,
     mkState (proxy s) (port s) (executable s)
             (<[PYBLISH_CLIENT_PORT := str (port s)]> (environ s))
             (trace s ++ l)) /\
    Forall (fun e => is_thread_start e || is_log e = true) l.
Proof.
  py_run.
  destruct (thread_start_reply w _) as [[]|e1]; py_state.
  - destruct (thread_start_reply w _) as [[]|e2]; py_state.
    + destruct (port s) as [n|]; py_state;
        eexists; (split; [reflexivity|]); repeat constructor.
    + eexists; (split; [reflexivity|]); repeat constructor.
  - eexists; (split; [reflexivity|]); repeat constructor.
Qed.

Lemma console_set_trace console s : trace (console_set console s) = trace s.
Proof. by destruct console. Qed.

Lemma console_set_executable console s :
  executable (console_set console s) = executable s.
Proof. by destruct console. Qed.

Lemma setup_negotiation_run s :
  try_except (setup_try w) is_connectivity (fun _ => setup_except w) s =
  (negotiation_result w s,
   mkState (Some (count is_proxy_created (trace s))) (negotiated_port w s)
           (executable s) (environ s)
           (trace s ++ negotiation_events w s)).
Proof.
  unfold try_except, negotiation_result, negotiated_port,
    negotiation_events.
  destruct (find_available_port_reply w _) as [n|e] eqn:Hfind.
  - by rewrite (setup_try_answered _ _ Hfind).
  - rewrite (setup_try_raises _ _ Hfind).
    destruct (is_connectivity e); [|done].
    rewrite setup_except_run. py_state.
    by rewrite ?count_app, ?Nat.add_0_r.
Qed.

(** A whole run of [setup]: its outcome is that of the [try]/[except]
    part; the [finally] clause adds the published port and events that are
    thread starts and log lines only. *)
Lemma setup_run console s :
  exists l,
    setup w console s =
    (negotiation_result w s,
     mkState (Some (count is_proxy_created (trace s)))
             (negotiated_port w s)
             (executable s)
             (<[PYBLISH_CLIENT_PORT := str (negotiated_port w s)]>
                (environ (console_set console s)))
             (trace s ++ negotiation_events w (console_set console s)
                      ++ l)) /\
    Forall (fun e => is_thread_start e || is_log e = true) l.
Proof.
  set (s0 := console_set console s).
  assert (Hstart : setup w console s =
            try_finally
              (try_except (setup_try w) is_connectivity
                          (fun _ => setup_except w))
              (setup_finally w) s0).
  { unfold setup, s0, console_set. by destruct console. }
  assert (Hres : negotiation_result w s0 = negotiation_result w s).
  { unfold negotiation_result, s0. by rewrite !console_set_trace. }
  assert (Hport : negotiated_port w s0 = negotiated_port w s).
  { unfold negotiated_port, s0. rewrite !console_set_trace.
    by destruct console. }
  rewrite Hstart. unfold try_finally.
  rewrite setup_negotiation_run.
  destruct (setup_finally_run
              (mkState (Some (count is_proxy_created (trace s0)))
                       (negotiated_port w s0) (executable s0) (environ s0)
                       (trace s0 ++ negotiation_events w s0)))
    as (l & Hfin & Hl).
  exists l. split; [|done].
  rewrite Hfin. cbn [proxy port executable environ trace].
  rewrite Hres, Hport.
  unfold s0. rewrite !console_set_trace, console_set_executable.
  by rewrite <- app_assoc.
Qed.

End Clauses.

(** * Port negotiation in [setup] *)

Section Negotiation.

Variable w : World.

(** C7: when a live worker answers [find_available_port] with [n], [setup]
    leaves [self.port = n] and spawns no process. *)
Theorem setup_live_worker_port (console : bool) (s : State) (n : Z) :
  find_available_port_reply w (count is_find (trace s)) = Ok n ->
  port (snd (setup w console s)) = Some n /\
  count is_popen (new_events s (snd (setup w console s))) = 0%nat.
Proof.
  intros Hfind.
  destruct (setup_run w console s) as (l & -> & Hl).
  cbn [snd port trace].
  unfold negotiated_port, negotiation_events.
  rewrite console_set_trace, Hfind. split; [done|].
  erewrite new_events_app; [|reflexivity].
  rewrite count_app. cbn.
  apply count_none. eapply Forall_impl; [exact Hl|].
  by intros [].
Qed.

(** C6: when [find_available_port] fails with a connectivity error,
    [setup] leaves [self.port] at the default [first_port] and makes
    exactly one [Popen] call, whether or not that call spawns anything. *)
Theorem setup_unreachable_default_port (console : bool) (s : State)
    (e : exn) :
  find_available_port_reply w (count is_find (trace s)) = Raise e ->
  is_connectivity e = true ->
  port (snd (setup w console s)) = Some (first_port w) /\
  count is_popen (new_events s (snd (setup w console s))) = 1%nat.
Proof.
  intros Hfind He.
  destruct (setup_run w console s) as (l & -> & Hl).
  cbn [snd port trace].
  unfold negotiated_port, negotiation_events.
  rewrite console_set_trace, Hfind, He. split; [done|].
  erewrite new_events_app; [|reflexivity].
  rewrite !count_app.
  rewrite (count_none is_popen l).
  - unfold fallback_events. by destruct (popen_reply w _).
  - eapply Forall_impl; [exact Hl|]. by intros [].
Qed.

(** C1, as the code has it: when the fallback spawned a process and
    [poll()] reports an exit status, the assertion fails and [setup]
    raises [AssertionError] to its caller. *)
Theorem setup_dead_worker_raises (console : bool) (s : State)
    (e : exn) (proc : Process) (status : Z) :
  find_available_port_reply w (count is_find (trace s)) = Raise e ->
  is_connectivity e = true ->
  popen_reply w (count is_popen (trace s)) = Ok proc ->
  poll_result proc = Some status ->
  fst (setup w console s) = Raise AssertionError.
Proof.
  intros Hfind He Hpopen Hpoll.
  destruct (setup_run w console s) as (l & -> & _).
  cbn [fst]. unfold negotiation_result.
  rewrite Hfind, He, Hpopen. unfold fallback_result.
  by rewrite Hpoll.
Qed.

End Negotiation.

Lemma setup_live_worker_port_witness :
  port (snd (setup w_live false (initial ∅))) = Some 9002 /\
  count is_popen
    (new_events (initial ∅) (snd (setup w_live false (initial ∅)))) = 0%nat.
Proof.
  apply (setup_live_worker_port w_live false (initial ∅) 9002). reflexivity.
Defined.

Lemma setup_unreachable_default_port_witness :
  port (snd (setup w_fresh false (initial ∅))) = Some 9001 /\
  count is_popen
    (new_events (initial ∅) (snd (setup w_fresh false (initial ∅)))) = 1%nat.
Proof.
  apply (setup_unreachable_default_port w_fresh false (initial ∅)
           socket_timeout); reflexivity.
Defined.

(** C2, as stated, fails: with no worker listening and a spawned process
    that has already exited, [setup] raises [AssertionError]. *)
Lemma setup_raises_to_caller :
  ~ (forall (w : World) (console : bool) (s : State),
        raised (fst (setup w console s)) = false).
Proof. intros H. specialize (H w_dead false (initial ∅)). discriminate H. Qed.

Lemma setup_dead_worker_raises_witness :
  fst (setup w_dead false (initial ∅)) = Raise AssertionError.
Proof.
  apply (setup_dead_worker_raises w_dead false (initial ∅) socket_error
           (mkProcess (Some 1)) 1); reflexivity.
Defined.

(** C1, as stated, fails: in that same run both threads are started and the
    only messages logged are those of a successful integration. *)
Lemma setup_dead_worker_still_serves :
  trace (snd (setup w_dead false (initial ∅))) =
  [ProxyCreated;
   RpcFindAvailablePort false;
   Popen ["python"; "-m"; "pyblish_qml"] CREATE_NO_WINDOW true;
   Poll;
   ThreadStart "server" true;
   ThreadStart "heartbeat_emitter" true;
   LogDebug "Server running @ 9001";
   LogDebug "Integration successful!"].
Proof. vm_compute. reflexivity. Qed.

(** * show *)

Section Show.

Variable w : World.

(** C5: with [self.port] unset, [show] raises the [TypeError] of its first
    statement and leaves the state, and so the trace, as it found it: no
    proxy is made and no call goes out. *)
Theorem show_uninitialised (s : State) :
  port s = None ->
  show w s = (Raise (TypeError "Integration not initialised correctly"), s)
  /\ count is_rpc (new_events s (snd (show w s))) = 0%nat.
Proof.
  intros Hport. unfold show, bind, gets, raise.
  rewrite Hport. cbn [snd]. by rewrite new_events_refl.
Qed.

(** C3, as the code has it: when the first [show(port)] is answered, the
    [finally] clause still makes its own [show(port)] call, so two calls
    go out; the outcome of [show] is that of the second. *)
Theorem show_reachable_run (s : State) (p : Z) :
  port s = Some p ->
  show_reply w (count is_show (trace s)) = Ok tt ->
  fst (show w s) = show_reply w (S (count is_show (trace s))) /\
  new_events s (snd (show w s)) =
  proxy_events s ++
  [RpcShow (Some p) true;
   RpcShow (Some p)
           (delivered (show_reply w (S (count is_show (trace s)))))].
Proof.
  intros Hport Hfirst.
  unfold show, proxy_events. py_run. rewrite Hport.
  destruct (proxy s); py_state; rewrite Hfirst; py_state;
    rewrite Nat.add_1_r, Hport;
    destruct (show_reply w (S _)) as [[]|e2];
    (split; [done|]); by apply new_events_app.
Qed.

(** C4: when the first [show(port)] fails with a connectivity error,
    [show] calls [preload] once, which makes one [Popen] call, and then
    makes one more [show(port)] call; this holds whatever [Popen] and the
    second call answer. *)
Theorem show_unreachable_retry (s : State) (p : Z) (e : exn) :
  port s = Some p ->
  show_reply w (count is_show (trace s)) = Raise e ->
  is_connectivity e = true ->
  new_events s (snd (show w s)) =
  proxy_events s ++
  [RpcShow (Some p) false;
   Popen [py_or (executable s) "python"; "-m"; "pyblish_qml"]
         (creationflags_for w (console_flag s))
         (delivered (popen_reply w (count is_popen (trace s))));
   RpcShow (Some p)
           (delivered (show_reply w (S (count is_show (trace s)))))].
Proof.
  intros Hport Hfirst He.
  unfold show, proxy_events. py_run. rewrite Hport.
  destruct (proxy s); py_state; rewrite Hfirst, He; py_state;
    unfold console_flag; rewrite Hport;
    destruct (popen_reply w _) as [proc|e1]; py_state;
    rewrite Nat.add_1_r;
    destruct (show_reply w (S _)) as [[]|e2]; py_state;
    by apply new_events_app.
Qed.

End Show.

Lemma show_uninitialised_witness :
  show w_live (initial ∅) =
  (Raise (TypeError "Integration not initialised correctly"), initial ∅)
  /\ count is_rpc (new_events (initial ∅) (snd (show w_live (initial ∅))))
     = 0%nat.
Proof. apply (show_uninitialised w_live (initial ∅)). reflexivity. Defined.

Lemma show_reachable_run_witness :
  fst (show w_live s_live) = Ok tt /\
  new_events s_live (snd (show w_live s_live)) =
  [RpcShow (Some 9002) true; RpcShow (Some 9002) true].
Proof. apply (show_reachable_run w_live s_live 9002); reflexivity. Defined.

Lemma show_unreachable_retry_witness :
  new_events s_ready (snd (show w_down s_ready)) =
  [RpcShow (Some 9002) false;
   Popen ["python"; "-m"; "pyblish_qml"] 0 false;
   RpcShow (Some 9002) true].
Proof.
  apply (show_unreachable_retry w_down s_ready 9002 socket_error);
    reflexivity.
Defined.

(** C3, as stated, fails: after a successful [setup] against a worker that
    answers every call, one [show()] makes the worker answer two
    [show(port)] calls. *)
Lemma show_reachable_shows_twice :
  fst (setup w_live false (initial ∅)) = Ok tt /\
  count is_answered_show (new_events s_live (snd (show w_live s_live)))
  = 2%nat.
Proof. split; vm_compute; reflexivity. Qed.

(** * heartbeat_emitter *)

Section Heartbeat.

Variable w : World.
Variable p : option Z.

Lemma count_turn_events k : count is_heartbeat (turn_events w p k) = 1%nat.
Proof. unfold turn_events. by destruct (delivered _). Qed.

Lemma count_turns k n :
  count is_heartbeat (flat_map (turn_events w p) (seq k n)) = n.
Proof.
  revert k. induction n as [|n IH]; intros k; [done|].
  cbn [seq flat_map]. by rewrite count_app, count_turn_events, IH.
Qed.

Lemma heartbeat_turn_run s :
  survivable (heartbeat_reply w (count is_heartbeat (trace s))) = true ->
  heartbeat_turn w p s =
  (Ok tt,
   mkState (proxy s) (port s) (executable s) (environ s)
           (trace s ++ turn_events w p (count is_heartbeat (trace s)))).
Proof.
  intros Hs. py_run. unfold turn_events.
  destruct (heartbeat_reply w _) as [[]|e]; py_state; [done|].
  cbn in Hs. by rewrite Hs.
Qed.

Lemma heartbeat_turns_run n :
  (forall k, survivable (heartbeat_reply w k) = true) ->
  forall s,
    heartbeat_turns w p n s =
    (Ok tt,
     mkState (proxy s) (port s) (executable s) (environ s)
             (trace s ++
              flat_map (turn_events w p)
                       (seq (count is_heartbeat (trace s)) n))).
Proof.
  intros Hw. induction n as [|n IH]; intros s.
  - cbn. rewrite app_nil_r. by destruct s.
  - cbn [heartbeat_turns]. unfold bind.
    rewrite heartbeat_turn_run by apply Hw.
    rewrite IH. cbn [proxy port executable environ trace].
    rewrite count_app, count_turn_events, Nat.add_1_r.
    cbn [seq flat_map]. by rewrite <- app_assoc.
Qed.

(** C8, as the code has it: when every heartbeat is either answered or
    refused with a socket error, the loop is still running after any
    number [n] of turns, no exception has left it, and it has made [n]
    calls.  A [Sleep 1] follows each answered call; a refused call is
    followed by the next call at once. *)
Theorem heartbeat_emitter_keeps_running (n : nat) (s : State) :
  (forall k, survivable (heartbeat_reply w k) = true) ->
  fst (heartbeat_emitter w p n s) = Ok tt /\
  new_events s (snd (heartbeat_emitter w p n s)) =
  ProxyCreated ::
    flat_map (turn_events w p) (seq (count is_heartbeat (trace s)) n) /\
  count is_heartbeat (new_events s (snd (heartbeat_emitter w p n s))) = n.
Proof.
  intros Hw.
  assert (Hev : new_events s (snd (heartbeat_emitter w p n s)) =
                ProxyCreated ::
                  flat_map (turn_events w p)
                           (seq (count is_heartbeat (trace s)) n)).
  { unfold heartbeat_emitter, client_proxy, bind, gets, emit, modify, ret.
    rewrite (heartbeat_turns_run n Hw). cbn [snd].
    apply new_events_app. by py_state. }
  split; [|split; [exact Hev|]].
  - unfold heartbeat_emitter, client_proxy, bind, gets, emit, modify, ret.
    by rewrite (heartbeat_turns_run n Hw).
  - rewrite Hev, count_cons. cbn [is_heartbeat Nat.add].
    apply count_turns.
Qed.

End Heartbeat.

Lemma heartbeat_emitter_keeps_running_witness :
  fst (heartbeat_emitter w_alternating (Some 9001) 4 (initial ∅)) = Ok tt /\
  new_events (initial ∅)
    (snd (heartbeat_emitter w_alternating (Some 9001) 4 (initial ∅))) =
  [ProxyCreated;
   RpcHeartbeat (Some 9001) true; Sleep 1;
   RpcHeartbeat (Some 9001) false;
   RpcHeartbeat (Some 9001) true; Sleep 1;
   RpcHeartbeat (Some 9001) false] /\
  count is_heartbeat
    (new_events (initial ∅)
       (snd (heartbeat_emitter w_alternating (Some 9001) 4 (initial ∅))))
  = 4%nat.
Proof.
  apply (heartbeat_emitter_keeps_running w_alternating (Some 9001) 4
           (initial ∅)).
  intros k. simpl. destruct (Nat.even k); reflexivity.
Defined.

(** C8, as stated, fails: against the alternating worker the second call,
    which is refused, is followed by the third without any sleep, so the
    calls are not one time unit apart. *)
Lemma heartbeat_alternating_not_paced :
  trace (snd (heartbeat_emitter w_alternating (Some 9001) 4 (initial ∅))) =
  [ProxyCreated;
   RpcHeartbeat (Some 9001) true; Sleep 1;
   RpcHeartbeat (Some 9001) false;
   RpcHeartbeat (Some 9001) true; Sleep 1;
   RpcHeartbeat (Some 9001) false] /\
  paced (trace (snd (heartbeat_emitter w_alternating (Some 9001) 4
                                       (initial ∅)))) = false.
Proof. split; reflexivity. Qed.

(** * preload *)

(** C9, as the code has it: [preload] makes one [Popen] call.  Its program
    is the registered executable when that is a non-empty string, and
    ["python"] when none is registered or the registered one is empty.  On
    Windows its creation flags are [CREATE_NO_WINDOW] exactly when the
    console flag is off; elsewhere they are [0]. *)
Theorem preload_launch (w : World) (s : State) :
  exists (program : string) (flags : Z) (spawned : bool),
    new_events s (snd (preload w s)) =
    [Popen [program; "-m"; "pyblish_qml"] flags spawned] /\
    (forall e, executable s = Some e -> e <> "" -> program = e) /\
    (executable s = None \/ executable s = Some "" -> program = "python") /\
    (os_name w = "nt" ->
     (flags = CREATE_NO_WINDOW <-> console_flag s = false)) /\
    (os_name w <> "nt" -> flags = 0).
Proof.
  rewrite preload_run. cbn [snd].
  eexists _, _, _. split.
  { apply new_events_app. reflexivity. }
  unfold py_or, creationflags_for. repeat split.
  - intros e -> Hne. apply String.eqb_neq in Hne. by rewrite Hne.
  - by intros [-> | ->].
  - rewrite H, String.eqb_refl. by destruct (console_flag s).
  - rewrite H, String.eqb_refl. by intros ->.
  - intros Hos. apply String.eqb_neq in Hos. by rewrite Hos.
Qed.

Lemma preload_launch_witness :
  (exists program flags spawned,
      new_events s_mayapy (snd (preload w_live s_mayapy)) =
      [Popen [program; "-m"; "pyblish_qml"] flags spawned] /\
      program = "mayapy" /\ flags <> CREATE_NO_WINDOW) /\
  (exists program flags spawned,
      new_events (initial ∅) (snd (preload w_down (initial ∅))) =
      [Popen [program; "-m"; "pyblish_qml"] flags spawned] /\
      program = "python" /\ flags = 0).
Proof.
  split.
  - destruct (preload_launch w_live s_mayapy)
      as (program & flags & spawned & Hev & Hreg & _ & Hnt & _).
    exists program, flags, spawned. split; [exact Hev|]. split.
    + apply (Hreg "mayapy"); [reflexivity | discriminate].
    + intros Hflags. apply Hnt in Hflags; [discriminate Hflags | reflexivity].
  - destruct (preload_launch w_down (initial ∅))
      as (program & flags & spawned & Hev & _ & Hnone & _ & Hposix).
    exists program, flags, spawned. split; [exact Hev|]. split.
    + apply Hnone. left. reflexivity.
    + apply Hposix. discriminate.
Defined.

(** C9, as stated, fails for an empty override: once
    [register_python_executable("")] has run, the registered executable is
    the empty string and the program launched is ["python"]. *)
Lemma preload_empty_override :
  fst (registered_python_executable s_empty) = Ok (Some "") /\
  new_events s_empty (snd (preload w_live s_empty)) =
  [Popen ["python"; "-m"; "pyblish_qml"] CREATE_NO_WINDOW true].
Proof. split; reflexivity. Qed.

(** * The console flag across calls *)

Section Console.

Variable w : World.

Lemma console_key_ne : PYBLISH_CLIENT_PORT <> PYBLISH_QML_CONSOLE.
Proof. discriminate. Qed.

Lemma creationflags_console_on : creationflags_for w true = 0.
Proof. unfold creationflags_for. by rewrite andb_false_r. Qed.

Lemma console_flag_console_set console s :
  console_flag (console_set console s) = console || console_flag s.
Proof.
  destruct console; [|done].
  unfold console_flag, console_set, set_environ. cbn [environ].
  by rewrite lookup_insert_eq.
Qed.

Lemma setup_frame console s :
  let s0 := console_set console s in
  exists l,
    trace (snd (setup w console s)) = trace s ++ l /\
    Forall (fun e => popen_flags_are (creationflags_for w (console_flag s0))
                                     e = true) l /\
    environ (snd (setup w console s)) !! PYBLISH_QML_CONSOLE =
    environ s0 !! PYBLISH_QML_CONSOLE.
Proof.
  intros s0. destruct (setup_run w console s) as (l & -> & Hl).
  fold s0. cbn [snd trace environ].
  exists (negotiation_events w s0 ++ l). split; [done|]. split.
  - apply Forall_app. split.
    + unfold negotiation_events.
      destruct (find_available_port_reply w _) as [n|e];
        [by repeat constructor|].
      repeat constructor. destruct (is_connectivity e); [|constructor].
      unfold fallback_events. constructor.
      * cbn. apply Z.eqb_refl.
      * destruct (popen_reply w _); repeat constructor.
    + eapply Forall_impl; [exact Hl|]. by intros [].
  - apply lookup_insert_ne, console_key_ne.
Qed.

Lemma show_frame s :
  exists l,
    trace (snd (show w s)) = trace s ++ l /\
    Forall (fun e => popen_flags_are (creationflags_for w (console_flag s))
                                     e = true) l /\
    environ (snd (show w s)) = environ s.
Proof.
  unfold show. py_run. unfold console_flag.
  destruct (port s) as [n|]; [|exists []; by rewrite app_nil_r].
  destruct (proxy s); py_state;
    (destruct (show_reply w _) as [[]|e]; py_state;
     [|destruct (is_connectivity e); py_state;
       [destruct (popen_reply w _); py_state|]]);
    destruct (show_reply w _) as [[]|e']; py_state;
    eexists; (split; [reflexivity|]); (split; [|reflexivity]);
    repeat constructor; cbn; apply Z.eqb_refl.
Qed.

(** With the flag on, a call leaves it on and launches with flags [0]. *)
Lemma call_console_on c s :
  console_flag s = true ->
  exists l,
    trace (snd (call w c s)) = trace s ++ l /\
    Forall (fun e => shows_console e = true) l /\
    console_flag (snd (call w c s)) = true.
Proof.
  intros Hon. destruct c as [console| |e]; cbn [call].
  - destruct (setup_frame console s) as (l & Htr & Hl & Henv).
    rewrite console_flag_console_set, Hon, orb_true_r,
      creationflags_console_on in Hl.
    exists l. split; [done|]. split; [done|].
    unfold console_flag at 1. rewrite Henv.
    fold (console_flag (console_set console s)).
    by rewrite console_flag_console_set, Hon, orb_true_r.
  - destruct (show_frame s) as (l & Htr & Hl & Henv).
    rewrite Hon, creationflags_console_on in Hl.
    exists l. split; [done|]. split; [done|].
    unfold console_flag. rewrite Henv. exact Hon.
  - exists []. cbn. rewrite app_nil_r. by repeat split.
Qed.

Lemma run_console_on cs :
  forall s,
    console_flag s = true ->
    exists l,
      trace (run w cs s) = trace s ++ l /\
      Forall (fun e => shows_console e = true) l /\
      console_flag (run w cs s) = true.
Proof.
  induction cs as [|c cs IH]; intros s Hon; cbn [run].
  - exists []. rewrite app_nil_r. by repeat split.
  - destruct (call_console_on c s Hon) as (l1 & Htr1 & Hl1 & Hon1).
    destruct (IH _ Hon1) as (l2 & Htr2 & Hl2 & Hon2).
    exists (l1 ++ l2). rewrite Htr2, Htr1, app_assoc.
    split; [done|]. split; [|done]. by apply Forall_app.
Qed.

(** C10: [setup(console=False)] leaves [PYBLISH_QML_CONSOLE] as it found
    it; and from a [setup(console=True)] on, through any later calls of
    [setup] (with either argument), [show] and
    [register_python_executable], the flag stays on and every [Popen] is
    made with creation flags [0], that is, with a console. *)
Theorem console_flag_sticky (s : State) (later : list Call) :
  environ (snd (setup w false s)) !! PYBLISH_QML_CONSOLE =
  environ s !! PYBLISH_QML_CONSOLE /\
  console_flag (run w (CallSetup true :: later) s) = true /\
  Forall (fun e => shows_console e = true)
         (new_events s (run w (CallSetup true :: later) s)).
Proof.
  split.
  { by destruct (setup_frame false s) as (l & _ & _ & Henv). }
  cbn [run call].
  destruct (setup_frame true s) as (l1 & Htr1 & Hl1 & Henv1).
  rewrite console_flag_console_set in Hl1. cbn [orb] in Hl1.
  rewrite creationflags_console_on in Hl1.
  assert (Hon1 : console_flag (snd (setup w true s)) = true).
  { unfold console_flag at 1. rewrite Henv1.
    fold (console_flag (console_set true s)).
    by rewrite console_flag_console_set. }
  destruct (run_console_on later _ Hon1) as (l2 & Htr2 & Hl2 & Hon2).
  split; [done|].
  erewrite new_events_app
    by (rewrite Htr2, Htr1, <- app_assoc; reflexivity).
  by apply Forall_app.
Qed.

End Console.

(** After [setup(console=True)], a [setup(console=False)] that has to start
    a worker on Windows still starts it with a console. *)
Example sticky_console_on_windows :
  List.filter is_popen
    (trace (run w_fresh [CallSetup true; CallSetup false] (initial ∅))) =
  [Popen ["python"; "-m"; "pyblish_qml"] 0 true;
   Popen ["python"; "-m"; "pyblish_qml"] 0 true].
Proof. vm_compute. reflexivity. Qed.

(** * Exact runs of [setup] and [show] *)

Section ExactRuns.

Variable w : World.

Lemma setup_finally_exact s :
  setup_finally w s =
  (Ok tt,
   mkState (proxy s) (port s) (executable s)
           (<[PYBLISH_CLIENT_PORT := str (port s)]> (environ s))
           (trace s ++
            finally_events w (count is_thread_start (trace s)) (port s))).
Proof.
  py_run. unfold finally_events.
  destruct (thread_start_reply w (count is_thread_start (trace s)))
    as [[]|e1]; py_state; [|done].
  rewrite Nat.add_1_r.
  destruct (thread_start_reply w (S _)) as [[]|e2]; py_state; [|done].
  destruct (port s) as [n|]; by py_state.
Qed.

Lemma count_thread_start_negotiation s :
  count is_thread_start (negotiation_events w s) = 0%nat.
Proof.
  unfold negotiation_events, fallback_events.
  destruct (find_available_port_reply w _) as [n|e]; [done|].
  destruct (is_connectivity e); [|done].
  by destruct (popen_reply w _).
Qed.

(** A whole run of [setup], event by event. *)
Lemma setup_run_exact console s :
  setup w console s =
  (negotiation_result w s,
   mkState (Some (count is_proxy_created (trace s)))
           (negotiated_port w s)
           (executable s)
           (<[PYBLISH_CLIENT_PORT := str (negotiated_port w s)]>
              (environ (console_set console s)))
           (trace s ++ negotiation_events w (console_set console s)
                    ++ finally_events w (count is_thread_start (trace s))
                                      (negotiated_port w s))).
Proof.
  set (s0 := console_set console s).
  assert (Hstart : setup w console s =
            try_finally
              (try_except (setup_try w) is_connectivity
                          (fun _ => setup_except w))
              (setup_finally w) s0).
  { unfold setup, s0, console_set. by destruct console. }
  assert (Hres : negotiation_result w s0 = negotiation_result w s).
  { unfold negotiation_result, s0. by rewrite !console_set_trace. }
  assert (Hport : negotiated_port w s0 = negotiated_port w s).
  { unfold negotiated_port, s0. rewrite !console_set_trace.
    by destruct console. }
  rewrite Hstart. unfold try_finally.
  rewrite setup_negotiation_run, setup_finally_exact.
  cbn [proxy port executable environ trace].
  rewrite count_app, count_thread_start_negotiation, Nat.add_0_r.
  rewrite Hres, Hport.
  unfold s0. rewrite !console_set_trace, console_set_executable.
  by rewrite <- app_assoc.
Qed.

(** A whole run of [show] from a state with [self.port] set. *)
Lemma show_run_exact s :
  is_Some (port s) ->
  show w s =
  (match show_reply w (S (count is_show (trace s))) with
   | Ok _ => show_body_result w s
   | Raise e2 => Raise e2
   end,
   mkState (match proxy s with
            | Some h => Some h
            | None => Some (count is_proxy_created (trace s))
            end)
           (port s) (executable s) (environ s)
           (trace s ++ proxy_events s ++ show_events w s)).
Proof.
  intros [p Hport].
  unfold show, proxy_events, show_events, show_body_result.
  py_run. rewrite Hport. unfold console_flag.
  destruct (proxy s) as [h|] eqn:Hproxy; py_state;
    (destruct (show_reply w (count is_show (trace s))) as [[]|e];
     py_state;
     [|destruct (is_connectivity e); py_state;
       [destruct (popen_reply w _) as [proc|e1]; py_state|]]);
    rewrite ?Nat.add_1_r, ?Hport, ?Hproxy;
    by destruct (show_reply w (S _)) as [[]|e2].
Qed.

Lemma show_run_unset s :
  port s = None ->
  show w s = (Raise (TypeError "Integration not initialised correctly"), s).
Proof. intros Hport. unfold show, bind, gets, raise. by rewrite Hport. Qed.

End ExactRuns.

(** * More on [setup] *)

Section SetupMore.

Variable w : World.

Lemma count_finally_events (q : Event -> bool) k p :
  (forall n b, q (ThreadStart n b) = false) ->
  (forall m, q (LogDebug m) = false) ->
  count q (finally_events w k p) = 0%nat.
Proof.
  intros Hts Hlog. unfold finally_events.
  destruct (thread_start_reply w k) as [[]|e1];
    [destruct (thread_start_reply w (S k)) as [[]|e2];
     [destruct p|]|];
    cbn [app]; rewrite ?count_cons, ?count_nil, ?Hts, ?Hlog; done.
Qed.

Lemma new_events_setup console s :
  new_events s (snd (setup w console s)) =
  negotiation_events w (console_set console s)
  ++ finally_events w (count is_thread_start (trace s))
                    (negotiated_port w s).
Proof. rewrite setup_run_exact. by apply new_events_app. Qed.

(** C2, as the code has it.  The outcome of [setup] is the outcome of its
    [try]/[except] part: a connectivity error of [find_available_port] is
    absorbed by the fallback, while a failing [Popen], a failing liveness
    assertion and any other error of [find_available_port] reach the
    caller.  Whatever that outcome is, the [finally] clause has run by
    then: the port is published in [PYBLISH_CLIENT_PORT], and the events
    end with the log of server startup: an exception raised there is
    caught, its traceback is logged and then ["Integration failed.."], and
    it does not reach the caller; without one, ["Integration successful!"]
    is logged. *)
Theorem setup_outcome (console : bool) (s : State) :
  fst (setup w console s) =
  match find_available_port_reply w (count is_find (trace s)) with
  | Ok _ => Ok tt
  | Raise e =>
      if is_connectivity e
      then match popen_reply w (count is_popen (trace s)) with
           | Ok proc => if bool_decide (poll_result proc = None)
                        then Ok tt else Raise AssertionError
           | Raise e' => Raise e'
           end
      else Raise e
  end /\
  environ (snd (setup w console s)) !! PYBLISH_CLIENT_PORT =
  Some (str (port (snd (setup w console s)))) /\
  exists before,
    new_events s (snd (setup w console s)) =
    before ++
    match startup_error w (count is_thread_start (trace s))
                        (port (snd (setup w console s))) with
    | Some e => [LogDebug (format_exception e);
                 LogDebug "Integration failed.."]
    | None => [LogDebug "Integration successful!"]
    end.
Proof.
  rewrite new_events_setup, setup_run_exact. cbn [fst snd environ port].
  split; [done|]. split; [apply lookup_insert_eq|].
  unfold finally_events, startup_error.
  destruct (thread_start_reply w (count is_thread_start (trace s)))
    as [[]|e1].
  - destruct (thread_start_reply w (S _)) as [[]|e2].
    + destruct (negotiated_port w s) as [n|].
      * exists (negotiation_events w (console_set console s) ++
                [ThreadStart "server" true;
                 ThreadStart "heartbeat_emitter" true;
                 LogDebug ("Server running @ " +:+ pretty n)]).
        by rewrite <- app_assoc.
      * exists (negotiation_events w (console_set console s) ++
                [ThreadStart "server" true;
                 ThreadStart "heartbeat_emitter" true]).
        by rewrite <- app_assoc.
    + exists (negotiation_events w (console_set console s) ++
              [ThreadStart "server" true;
               ThreadStart "heartbeat_emitter" false]).
      by rewrite <- app_assoc.
  - exists (negotiation_events w (console_set console s) ++
            [ThreadStart "server" false]).
    by rewrite <- app_assoc.
Qed.

(** [setup] makes one proxy and one [find_available_port] call, and no
    [show] or [heartbeat] call, whatever the world answers. *)
Theorem setup_one_rpc (console : bool) (s : State) :
  count is_proxy_created (new_events s (snd (setup w console s))) = 1%nat /\
  count is_find (new_events s (snd (setup w console s))) = 1%nat /\
  count is_show (new_events s (snd (setup w console s))) = 0%nat /\
  count is_heartbeat (new_events s (snd (setup w console s))) = 0%nat.
Proof.
  rewrite new_events_setup, !count_app, !count_finally_events by done.
  unfold negotiation_events, fallback_events.
  destruct (find_available_port_reply w _) as [n|e]; [done|].
  destruct (is_connectivity e); [|done].
  by destruct (popen_reply w _).
Qed.

(** When the two thread starts succeed, [setup] starts the [server] and
    the [heartbeat_emitter] thread, in that order, whatever port
    negotiation did; also when [setup] goes on to raise. *)
Theorem setup_starts_both_threads (console : bool) (s : State) :
  thread_start_reply w (count is_thread_start (trace s)) = Ok tt ->
  thread_start_reply w (S (count is_thread_start (trace s))) = Ok tt ->
  List.filter is_thread_start (new_events s (snd (setup w console s))) =
  [ThreadStart "server" true; ThreadStart "heartbeat_emitter" true].
Proof.
  intros H0 H1.
  rewrite new_events_setup, List.filter_app.
  assert (Hneg : List.filter is_thread_start
                   (negotiation_events w (console_set console s)) = []).
  { apply length_zero_iff_nil.
    apply (count_thread_start_negotiation w (console_set console s)). }
  rewrite Hneg. unfold finally_events. rewrite H0, H1.
  by destruct (negotiated_port w s).
Qed.

(** The last thing [setup] does is log its verdict: success when both
    threads started and [self.port] is a number, failure otherwise.  The
    verdict does not look at what port negotiation raised. *)
Theorem setup_verdict (console : bool) (s : State) :
  last (new_events s (snd (setup w console s))) =
  Some (LogDebug
          (if delivered (thread_start_reply w
                           (count is_thread_start (trace s)))
              && delivered (thread_start_reply w
                              (S (count is_thread_start (trace s))))
              && bool_decide (is_Some (port (snd (setup w console s))))
           then "Integration successful!"
           else "Integration failed..")).
Proof.
  rewrite new_events_setup, setup_run_exact. cbn [snd port].
  rewrite last_app. unfold finally_events.
  destruct (thread_start_reply w (count is_thread_start (trace s)))
    as [[]|e1]; [|done].
  destruct (thread_start_reply w (S _)) as [[]|e2]; [|done].
  by destruct (negotiated_port w s) as [n|].
Qed.

(** An error of [find_available_port] that is not a socket error goes to
    the caller of [setup]; [self.port] keeps its earlier value and nothing
    is launched. *)
Theorem setup_other_error (console : bool) (s : State) (e : exn) :
  find_available_port_reply w (count is_find (trace s)) = Raise e ->
  is_connectivity e = false ->
  fst (setup w console s) = Raise e /\
  port (snd (setup w console s)) = port s /\
  count is_popen (new_events s (snd (setup w console s))) = 0%nat.
Proof.
  intros Hfind He.
  rewrite new_events_setup, setup_run_exact. cbn [fst snd port].
  unfold negotiation_result, negotiated_port, negotiation_events.
  rewrite console_set_trace, Hfind, He.
  rewrite count_app, count_finally_events by done.
  done.
Qed.

(** Once [find_available_port] has answered or failed with a socket
    error, [self.port] is set when [setup] ends, so a [show] that follows
    is past its initialisation check and makes its two [show(port)]
    calls.  This holds also when [setup] itself raised. *)
Theorem setup_then_show (console : bool) (s : State) :
  reaches_port (find_available_port_reply w (count is_find (trace s)))
  = true ->
  is_Some (port (snd (setup w console s))) /\
  count is_show
    (new_events (snd (setup w console s))
                (snd (show w (snd (setup w console s))))) = 2%nat.
Proof.
  intros Hfind.
  assert (Hport : is_Some (port (snd (setup w console s)))).
  { rewrite setup_run_exact. cbn [snd port]. unfold negotiated_port.
    destruct (find_available_port_reply w _) as [n|e]; [by eexists|].
    cbn in Hfind. rewrite Hfind. by eexists. }
  split; [exact Hport|].
  rewrite (show_run_exact w _ Hport). cbn [snd].
  erewrite new_events_app by reflexivity.
  unfold proxy_events, show_events.
  rewrite count_app.
  destruct (proxy _); destruct (show_reply w _) as [[]|e];
    try destruct (is_connectivity e); done.
Qed.

End SetupMore.

Lemma setup_starts_both_threads_witness :
  fst (setup w_dead false (initial ∅)) = Raise AssertionError /\
  List.filter is_thread_start
    (new_events (initial ∅) (snd (setup w_dead false (initial ∅)))) =
  [ThreadStart "server" true; ThreadStart "heartbeat_emitter" true].
Proof.
  split; [reflexivity|].
  apply (setup_starts_both_threads w_dead false (initial ∅)); reflexivity.
Defined.

Lemma setup_other_error_witness :
  fst (setup w_fault false (initial ∅)) = Raise (OtherError "Fault") /\
  port (snd (setup w_fault false (initial ∅))) = None /\
  count is_popen
    (new_events (initial ∅) (snd (setup w_fault false (initial ∅)))) = 0%nat.
Proof.
  apply (setup_other_error w_fault false (initial ∅) (OtherError "Fault"));
    reflexivity.
Defined.

Lemma setup_then_show_witness :
  is_Some (port (snd (setup w_dead false (initial ∅)))) /\
  count is_show
    (new_events (snd (setup w_dead false (initial ∅)))
                (snd (show w_dead (snd (setup w_dead false (initial ∅))))))
  = 2%nat.
Proof. apply (setup_then_show w_dead false (initial ∅)). reflexivity. Defined.

(** * More on [show] *)

Section ShowMore.

Variable w : World.

(** With [self.port] set, [show] always makes two [show(port)] calls, the
    one of the [try] body and the one of the [finally] clause, both with
    the current port; it launches a worker exactly when the first call
    failed with a socket error. *)
Theorem show_two_calls (s : State) :
  is_Some (port s) ->
  List.filter is_show (new_events s (snd (show w s))) =
  [RpcShow (port s) (delivered (show_reply w (count is_show (trace s))));
   RpcShow (port s)
           (delivered (show_reply w (S (count is_show (trace s)))))] /\
  count is_popen (new_events s (snd (show w s))) =
  match show_reply w (count is_show (trace s)) with
  | Raise e => if is_connectivity e then 1%nat else 0%nat
  | Ok _ => 0%nat
  end.
Proof.
  intros Hport. rewrite (show_run_exact w s Hport). cbn [snd].
  erewrite new_events_app by reflexivity.
  unfold proxy_events, show_events.
  rewrite List.filter_app, count_app.
  destruct (proxy s); destruct (show_reply w (count is_show (trace s)))
    as [[]|e]; try destruct (is_connectivity e); done.
Qed.

(** The outcome of [show] with [self.port] set.  An exception of the
    final [show(port)] call is the one the caller gets, whatever came
    before.  Otherwise the caller gets what the [try] statement left: an
    error of the first call that is not a socket error, or the error of a
    failed launch, or nothing. *)
Theorem show_outcome (s : State) :
  is_Some (port s) ->
  fst (show w s) =
  match show_reply w (S (count is_show (trace s))) with
  | Raise e2 => Raise e2
  | Ok _ =>
      match show_reply w (count is_show (trace s)) with
      | Ok _ => Ok tt
      | Raise e =>
          if is_connectivity e
          then match popen_reply w (count is_popen (trace s)) with
               | Ok _ => Ok tt
               | Raise e' => Raise e'
               end
          else Raise e
      end
  end.
Proof.
  intros Hport. rewrite (show_run_exact w s Hport). cbn [fst].
  unfold show_body_result.
  by destruct (show_reply w (S _)) as [[]|e2].
Qed.

(** [show] never writes [self.port], [self.executable] or the
    environment.  It keeps a cached proxy, and makes one only when there
    is none and [self.port] is set. *)
Theorem show_keeps_state (s : State) :
  port (snd (show w s)) = port s /\
  executable (snd (show w s)) = executable s /\
  environ (snd (show w s)) = environ s /\
  proxy (snd (show w s)) =
  match proxy s, port s with
  | None, Some _ => Some (count is_proxy_created (trace s))
  | h, _ => h
  end /\
  count is_proxy_created (new_events s (snd (show w s))) =
  match proxy s, port s with
  | None, Some _ => 1%nat
  | _, _ => 0%nat
  end.
Proof.
  destruct (port s) as [p|] eqn:Hport.
  - assert (Hsome : is_Some (port s)) by (by eexists).
    rewrite (show_run_exact w s Hsome). cbn [snd port executable environ
                                               proxy].
    erewrite new_events_app by reflexivity.
    rewrite count_app, Hport. unfold proxy_events, show_events.
    split; [done|]. split; [done|]. split; [done|]. split.
    + by destruct (proxy s).
    + destruct (proxy s); destruct (show_reply w _) as [[]|e];
        try destruct (is_connectivity e); done.
  - rewrite (show_run_unset w s Hport). cbn [snd].
    rewrite new_events_refl, Hport.
    split; [done|]. split; [done|]. split; [done|].
    by destruct (proxy s).
Qed.

End ShowMore.

Lemma show_two_calls_witness :
  List.filter is_show (new_events s_ready (snd (show w_down s_ready))) =
  [RpcShow (Some 9002) false; RpcShow (Some 9002) true] /\
  count is_popen (new_events s_ready (snd (show w_down s_ready))) = 1%nat.
Proof.
  apply (show_two_calls w_down s_ready). eexists. reflexivity.
Defined.

Lemma show_outcome_witness :
  fst (show w_down s_ready) = Raise (OtherError "OSError").
Proof.
  apply (show_outcome w_down s_ready). eexists. reflexivity.
Defined.

(** * Across calls *)

Section AcrossCalls.

Variable w : World.

Lemma call_keeps_published c s :
  environ s !! PYBLISH_CLIENT_PORT = Some (str (port s)) ->
  environ (snd (call w c s)) !! PYBLISH_CLIENT_PORT =
  Some (str (port (snd (call w c s)))).
Proof.
  intros Hpub. destruct c as [console| |e]; cbn [call].
  - rewrite setup_run_exact. cbn [snd environ port].
    apply lookup_insert_eq.
  - destruct (port s) as [p|] eqn:Hport.
    + assert (Hsome : is_Some (port s)) by (by eexists).
      rewrite (show_run_exact w s Hsome). cbn [snd environ port].
      by rewrite Hpub, Hport.
    + rewrite (show_run_unset w s Hport). cbn [snd].
      by rewrite Hpub, Hport.
  - exact Hpub.
Qed.

(** From the first [setup] on, and through any later calls of [setup],
    [show] and [register_python_executable], the environment variable
    [PYBLISH_CLIENT_PORT] holds [str(self.port)]; this is ["None"] when no
    port was ever negotiated. *)
Theorem client_port_published (console : bool) (later : list Call)
    (s : State) :
  environ (run w (CallSetup console :: later) s) !! PYBLISH_CLIENT_PORT =
  Some (str (port (run w (CallSetup console :: later) s))).
Proof.
  cbn [run call].
  assert (Hpub : environ (snd (setup w console s)) !! PYBLISH_CLIENT_PORT
                 = Some (str (port (snd (setup w console s))))).
  { rewrite setup_run_exact. cbn [snd environ port].
    apply lookup_insert_eq. }
  revert Hpub. generalize (snd (setup w console s)).
  induction later as [|c later IH]; intros s1 Hpub; cbn [run]; [done|].
  apply IH. by apply call_keeps_published.
Qed.

Lemma call_keeps_executable c s :
  is_register c = false ->
  exists l,
    trace (snd (call w c s)) = trace s ++ l /\
    executable (snd (call w c s)) = executable s /\
    Forall (fun e => popen_args_are
                       [py_or (executable s) "python"; "-m"; "pyblish_qml"]
                       e = true) l.
Proof.
  intros Hc. destruct c as [console| |e]; [| |done]; cbn [call].
  - rewrite setup_run_exact. cbn [snd trace executable].
    eexists. split; [reflexivity|]. split; [done|].
    apply Forall_app. split.
    + unfold negotiation_events, fallback_events.
      rewrite console_set_executable.
      destruct (find_available_port_reply w _) as [n|e];
        [by repeat constructor|].
      destruct (is_connectivity e); [|by repeat constructor].
      destruct (popen_reply w _); repeat constructor;
        cbn; by rewrite bool_decide_eq_true_2.
    + unfold finally_events.
      destruct (thread_start_reply w _) as [[]|e1];
        [destruct (thread_start_reply w _) as [[]|e2];
         [destruct (negotiated_port w s)|]|];
        by repeat constructor.
  - destruct (port s) as [p|] eqn:Hport.
    + assert (Hsome : is_Some (port s)) by (by eexists).
      rewrite (show_run_exact w s Hsome). cbn [snd trace executable].
      eexists. split; [reflexivity|]. split; [done|].
      unfold proxy_events, show_events.
      destruct (proxy s); destruct (show_reply w _) as [[]|e];
        try destruct (is_connectivity e);
        repeat constructor; cbn; by rewrite bool_decide_eq_true_2.
    + rewrite (show_run_unset w s Hport). cbn [snd].
      exists []. rewrite app_nil_r. by repeat split.
Qed.

Lemma run_keeps_executable cs :
  forallb (fun c => negb (is_register c)) cs = true ->
  forall s,
    exists l,
      trace (run w cs s) = trace s ++ l /\
      executable (run w cs s) = executable s /\
      Forall (fun e => popen_args_are
                         [py_or (executable s) "python"; "-m";
                          "pyblish_qml"] e = true) l.
Proof.
  induction cs as [|c cs IH]; intros Hcs s; cbn [run].
  - exists []. rewrite app_nil_r. by repeat split.
  - cbn [forallb] in Hcs. apply andb_prop in Hcs as [Hc Hcs].
    apply negb_true_iff in Hc.
    destruct (call_keeps_executable c s Hc) as (l1 & Htr1 & He1 & Hl1).
    destruct (IH Hcs (snd (call w c s))) as (l2 & Htr2 & He2 & Hl2).
    exists (l1 ++ l2). rewrite Htr2, Htr1, app_assoc, He2, He1.
    split; [done|]. split; [done|].
    apply Forall_app. split; [done|]. by rewrite He1 in Hl2.
Qed.

(** After [register_python_executable(e)] with [e] a non-empty string,
    every worker that later [setup] and [show] calls launch is started as
    [e -m pyblish_qml], until another executable is registered. *)
Theorem registered_executable_used (e : string) (later : list Call)
    (s : State) :
  e <> "" ->
  forallb (fun c => negb (is_register c)) later = true ->
  Forall (fun ev => popen_args_are [e; "-m"; "pyblish_qml"] ev = true)
         (new_events s (run w (CallRegister (Some e) :: later) s)).
Proof.
  intros He Hlater. cbn [run call].
  change (snd (register_python_executable (Some e) s))
    with (set_executable (Some e) s).
  destruct (run_keeps_executable later Hlater (set_executable (Some e) s))
    as (l & Htr & _ & Hl).
  cbn [set_executable executable trace py_or] in Htr, Hl.
  apply String.eqb_neq in He. rewrite He in Hl.
  by rewrite (new_events_app _ _ _ Htr).
Qed.

End AcrossCalls.

Lemma registered_executable_used_witness :
  Forall (fun ev => popen_args_are ["mayapy"; "-m"; "pyblish_qml"] ev = true)
         (new_events (initial ∅)
            (run w_fresh
                 [CallRegister (Some "mayapy"); CallSetup false; CallShow]
                 (initial ∅))) /\
  count is_popen
        (new_events (initial ∅)
           (run w_fresh
                [CallRegister (Some "mayapy"); CallSetup false; CallShow]
                (initial ∅))) = 1%nat.
Proof.
  split; [|reflexivity].
  apply (registered_executable_used w_fresh "mayapy"
           [CallSetup false; CallShow] (initial ∅));
    [discriminate | reflexivity].
Defined.

(** * More on [heartbeat_emitter] *)

Section HeartbeatMore.

Variable w : World.
Variable p : option Z.

Lemma heartbeat_turn_other_error s e :
  heartbeat_reply w (count is_heartbeat (trace s)) = Raise e ->
  is_connectivity e = false ->
  heartbeat_turn w p s =
  (Raise e,
   mkState (proxy s) (port s) (executable s) (environ s)
           (trace s ++ [RpcHeartbeat p false])).
Proof. intros Hr He. py_run. rewrite Hr. py_state. by rewrite He. Qed.

Lemma heartbeat_turns_S n s :
  heartbeat_turns w p (S n) s =
  bind (heartbeat_turn w p) (fun _ => heartbeat_turns w p n) s.
Proof. reflexivity. Qed.

(** The loop up to and including the turn whose call fails with an error
    that is not a socket error. *)
Lemma heartbeat_turns_stop e m k :
  forall s,
    (forall j, (j < k)%nat ->
               survivable
                 (heartbeat_reply w (count is_heartbeat (trace s) + j))
               = true) ->
    heartbeat_reply w (count is_heartbeat (trace s) + k) = Raise e ->
    is_connectivity e = false ->
    heartbeat_turns w p (S (k + m)) s =
    (Raise e,
     mkState (proxy s) (port s) (executable s) (environ s)
             (trace s ++
              flat_map (turn_events w p)
                       (seq (count is_heartbeat (trace s)) k)
              ++ [RpcHeartbeat p false])).
Proof.
  induction k as [|k IH]; intros s Hpre Hk He.
  - rewrite Nat.add_0_r in Hk.
    cbn [Nat.add heartbeat_turns]. unfold bind.
    by rewrite (heartbeat_turn_other_error s e Hk He).
  - change (S (S k + m)) with (S (S (k + m))).
    rewrite heartbeat_turns_S. unfold bind at 1.
    rewrite heartbeat_turn_run
      by (rewrite <- (Nat.add_0_r (count _ _)); apply Hpre; lia).
    rewrite IH; cbn [proxy port executable environ trace];
      rewrite ?count_app, ?count_turn_events.
    + cbn [seq flat_map]. by rewrite Nat.add_1_r, <- !app_assoc.
    + intros j Hj. rewrite <- Nat.add_assoc. apply Hpre. cbn. lia.
    + by rewrite <- Nat.add_assoc.
    + exact He.
Qed.

(** An exception of [heartbeat] that is not a socket error ends the
    emitter: when call number [k] is the first to fail that way, the loop
    stops there with that exception, after [k + 1] calls, however many
    more turns it is given. *)
Theorem heartbeat_stops_on_other_error (s : State) (e : exn) (k m : nat) :
  (forall j, (j < k)%nat ->
             survivable
               (heartbeat_reply w (count is_heartbeat (trace s) + j))
             = true) ->
  heartbeat_reply w (count is_heartbeat (trace s) + k) = Raise e ->
  is_connectivity e = false ->
  fst (heartbeat_emitter w p (S (k + m)) s) = Raise e /\
  count is_heartbeat
    (new_events s (snd (heartbeat_emitter w p (S (k + m)) s))) = S k.
Proof.
  intros Hpre Hk He.
  unfold heartbeat_emitter, client_proxy, bind, gets, emit, modify, ret.
  assert (Hc : count is_heartbeat (trace (log_event ProxyCreated s))
               = count is_heartbeat (trace s)).
  { cbn [log_event trace]. rewrite count_app. cbn. lia. }
  rewrite (heartbeat_turns_stop e m k (log_event ProxyCreated s));
    rewrite ?Hc; try done.
  cbn [fst snd]. split; [done|].
  erewrite new_events_app
    by (cbn [log_event trace proxy port executable environ];
        rewrite <- app_assoc; reflexivity).
  rewrite !count_app, count_turns. cbn. lia.
Qed.

Lemma count_sleep_turns k n :
  count is_sleep (flat_map (turn_events w p) (seq k n)) =
  count is_answered_heartbeat (flat_map (turn_events w p) (seq k n)).
Proof.
  revert k. induction n as [|n IH]; intros k; [done|].
  cbn [seq flat_map]. rewrite !count_app, IH.
  unfold turn_events. by destruct (delivered _).
Qed.

(** While the emitter runs, it has slept once for each heartbeat the
    worker answered, and not at all for the others. *)
Theorem heartbeat_sleeps_after_answers (n : nat) (s : State) :
  (forall k, survivable (heartbeat_reply w k) = true) ->
  count is_sleep (new_events s (snd (heartbeat_emitter w p n s))) =
  count is_answered_heartbeat
    (new_events s (snd (heartbeat_emitter w p n s))).
Proof.
  intros Hw.
  unfold heartbeat_emitter, client_proxy, bind, gets, emit, modify, ret.
  rewrite (heartbeat_turns_run w p n Hw). cbn [snd].
  erewrite new_events_app
    by (cbn [log_event trace]; rewrite <- app_assoc; reflexivity).
  cbn [app]. rewrite !count_cons. cbn [is_sleep is_answered_heartbeat].
  by rewrite count_sleep_turns.
Qed.

Lemma paced_turns k n :
  (forall j, heartbeat_reply w j = Ok tt) ->
  paced (flat_map (turn_events w p) (seq k n)) = true.
Proof.
  intros Hw. revert k. induction n as [|n IH]; intros k; [done|].
  cbn [seq flat_map]. unfold turn_events at 1. rewrite Hw.
  cbn. apply IH.
Qed.

Lemma count_sleep_answered k n :
  (forall j, heartbeat_reply w j = Ok tt) ->
  count is_sleep (flat_map (turn_events w p) (seq k n)) = n.
Proof.
  intros Hw. revert k. induction n as [|n IH]; intros k; [done|].
  cbn [seq flat_map]. rewrite count_app, IH.
  unfold turn_events. by rewrite Hw.
Qed.

(** Against a worker that answers every heartbeat the emitter keeps the
    interval: each call is followed by a sleep of one time unit before
    the next. *)
Theorem heartbeat_paced_when_answered (n : nat) (s : State) :
  (forall k, heartbeat_reply w k = Ok tt) ->
  fst (heartbeat_emitter w p n s) = Ok tt /\
  paced (new_events s (snd (heartbeat_emitter w p n s))) = true /\
  count is_sleep (new_events s (snd (heartbeat_emitter w p n s))) = n.
Proof.
  intros Hw.
  assert (Hs : forall k, survivable (heartbeat_reply w k) = true).
  { intros k. by rewrite Hw. }
  unfold heartbeat_emitter, client_proxy, bind, gets, emit, modify, ret.
  rewrite (heartbeat_turns_run w p n Hs). cbn [fst snd].
  erewrite new_events_app
    by (cbn [log_event trace]; rewrite <- app_assoc; reflexivity).
  split; [done|]. split.
  - cbn [app paced]. by apply paced_turns.
  - cbn [app]. rewrite count_cons. cbn [is_sleep Nat.add].
    by apply count_sleep_answered.
Qed.

End HeartbeatMore.

Lemma heartbeat_stops_on_other_error_witness :
  fst (heartbeat_emitter w_faulty_heartbeat (Some 9001) 10 (initial ∅)) =
  Raise (OtherError "Fault") /\
  count is_heartbeat
    (new_events (initial ∅)
       (snd (heartbeat_emitter w_faulty_heartbeat (Some 9001) 10
                               (initial ∅)))) = 4%nat.
Proof.
  apply (heartbeat_stops_on_other_error w_faulty_heartbeat (Some 9001)
           (initial ∅) (OtherError "Fault") 3 6).
  - intros j Hj. simpl.
    destruct j as [|[|[|j]]]; [reflexivity | reflexivity | reflexivity | lia].
  - reflexivity.
  - reflexivity.
Defined.

Lemma heartbeat_sleeps_after_answers_witness :
  count is_sleep
    (new_events (initial ∅)
       (snd (heartbeat_emitter w_alternating (Some 9001) 5 (initial ∅)))) =
  3%nat.
Proof.
  rewrite (heartbeat_sleeps_after_answers w_alternating (Some 9001) 5
             (initial ∅)).
  - reflexivity.
  - intros k. simpl. destruct (Nat.even k); reflexivity.
Defined.

Lemma heartbeat_paced_when_answered_witness :
  fst (heartbeat_emitter w_live (Some 9002) 3 (initial ∅)) = Ok tt /\
  paced (new_events (initial ∅)
           (snd (heartbeat_emitter w_live (Some 9002) 3 (initial ∅)))) = true
  /\
  count is_sleep
    (new_events (initial ∅)
       (snd (heartbeat_emitter w_live (Some 9002) 3 (initial ∅)))) = 3%nat.
Proof.
  apply (heartbeat_paced_when_answered w_live (Some 9002) 3 (initial ∅)).
  intros k. reflexivity.
Defined.
